(** * eeip.py, examples/sample2_implicit_udp_callback.py

    A shallow embedding of the example's [MessageProcessor.process] callback
    and of its [main] entry point, and the properties of the acknowledgment
    decision, of the receive callback and of the session life cycle that the
    specification states about them.

    Python statements are embedded in a small monad pairing the trace of
    observable events (lines printed, calls made on the [EEIPClient]
    collaborator, [time.sleep]) with either a returned value or a raised
    exception.  The collaborator itself, [eeip.eipclient.EEIPClient], is not
    part of the example: every call made on it is answered by a [World], which
    fixes for each call whether it returns or raises. *)

From Stdlib Require Import List Bool Arith NArith Lia.
From Stdlib.Strings Require Import Ascii String Byte.
From Stdlib.Numbers Require Import DecimalString.
Import ListNotations.

Local Open Scope string_scope.
Local Open Scope list_scope.

(** ** Python runtime *)

Module Py.

(** The exception classes that matter to the example.  [Exception_] stands
    for any other class. *)
Inductive exn : Type :=
| KeyboardInterrupt
| RegistrationError
| ConnectionError
| SendError
| IndexError
| Exception_.

Definition exn_eqb (a b : exn) : bool :=
  match a, b with
  | KeyboardInterrupt, KeyboardInterrupt
  | RegistrationError, RegistrationError
  | ConnectionError, ConnectionError
  | SendError, SendError
  | IndexError, IndexError
  | Exception_, Exception_ => true
  | _, _ => false
  end.

(** How a statement or a call ends. *)
Inductive result (A : Type) : Type :=
| Ret (a : A)
| Raise (e : exn).
Arguments Ret {A} a.
Arguments Raise {A} e.

(** [bytes]: an immutable sequence of integers in [0, 255]. *)
Definition bytes := list byte.

(** Observable events, in program order. *)
Inductive event : Type :=
| Print (line : string)
| SetUdpReceiveCallback
| RegisterSession (address : string)
| ForwardOpen
| SendUdpExplicitly (datagram : bytes)
| Sleep (seconds : N)
| ForwardClose
| UnregisterSession.

(** A computation: the events it produced and how it ended. *)
Definition M (A : Type) : Type := (list event * result A)%type.

Definition ret {A} (a : A) : M A := ([], Ret a).
Definition raise {A} (e : exn) : M A := ([], Raise e).

Definition bind {A B} (m : M A) (k : A -> M B) : M B :=
  match m with
  | (t, Ret a) => let '(t', r) := k a in (t ++ t', r)
  | (t, Raise e) => (t, Raise e)
  end.

Definition trace {A} (m : M A) : list event := fst m.
Definition outcome {A} (m : M A) : result A := snd m.

(** [print(line)] *)
Definition print (line : string) : M unit := ([Print line], Ret tt).

(** A call on a collaborator: the call is observed, then it returns or
    raises as the collaborator decides. *)
Definition call {A} (ev : event) (r : result A) : M A := ([ev], r).

(** [try: body / except cls: handler] *)
Definition try_except (body : M unit) (cls : exn) (handler : M unit) : M unit :=
  match body with
  | (t, Raise e) =>
      if exn_eqb e cls then let '(t', r) := handler in (t ++ t', r)
      else (t, Raise e)
  | (t, Ret a) => (t, Ret a)
  end.

(** [try: body / finally: cleanup]: the cleanup always runs; when it
    raises, its exception replaces how the body ended. *)
Definition try_finally (body : M unit) (cleanup : M unit) : M unit :=
  let '(t, r) := body in
  match cleanup with
  | (t', Ret _) => (t ++ t', r)
  | (t', Raise e) => (t ++ t', Raise e)
  end.

(** [for x in xs: body(x)] *)
Fixpoint for_each {A} (xs : list A) (body : A -> M unit) : M unit :=
  match xs with
  | [] => ret tt
  | x :: xs' => bind (body x) (fun _ => for_each xs' body)
  end.

(** [range(n)] *)
Definition range (n : nat) : list nat := seq 0 n.

(** Truth value of a [bytes] object: false exactly when it is empty. *)
Definition bytes_truthy (data : bytes) : bool :=
  match data with [] => false | _ :: _ => true end.

(** Truth value of an [int]. *)
Definition int_truthy (n : N) : bool := negb (N.eqb n 0).

(** [data[i]]: raises [IndexError] out of range. *)
Definition getitem (data : bytes) (i : nat) : M N :=
  match nth_error data i with
  | Some b => ret (Byte.to_N b)
  | None => raise IndexError
  end.

(** [data[:n]]: never raises. *)
Definition slice_to (n : nat) (data : bytes) : bytes := firstn n data.

(** [str(n)] for a non-negative [int]. *)
Definition str_int (n : N) : string := NilZero.string_of_uint (N.to_uint n).

(** [str(xs)] for a list of non-negative [int]s: ["[1, 2, 3]"]. *)
Definition str_list (xs : list N) : string :=
  "[" ++ String.concat ", " (map str_int xs) ++ "]".

(** [list(data)] *)
Definition list_of_bytes (data : bytes) : list N := map Byte.to_N data.

Definition hex_digit (n : N) : ascii :=
  nth (N.to_nat n)
      (list_ascii_of_string "0123456789abcdef") "0"%char.

(** [data.hex()]: two lower-case hexadecimal digits per byte. *)
Definition hex_of_byte (b : byte) : string :=
  let n := Byte.to_N b in
  String (hex_digit (N.div n 16)) (String (hex_digit (N.modulo n 16)) EmptyString).

Definition bytes_hex (data : bytes) : string :=
  String.concat "" (map hex_of_byte data).

End Py.
Import Py.

Declare Scope py_scope.
Delimit Scope py_scope with py.
Notation "x <- m ;; k" := (bind m (fun x => k))
  (at level 61, m at next level, right associativity) : py_scope.
Notation "m ;; k" := (bind m (fun _ => k))
  (at level 61, right associativity) : py_scope.
Local Open Scope py_scope.

(** ** The collaborator and the environment *)

(** What the example's surroundings answer.  [EEIPClient] lives in
    [eeip/eipclient.py]; the example only calls it.  [t_o_iodata i] is the
    value of the attribute [eeipclient.t_o_iodata] when the foreground loop
    reads it in iteration [i] (the receive path may have changed it
    meanwhile), and [time_sleep i] is how [time.sleep(1)] ends in iteration
    [i]: an interruption arriving mid-wait makes it raise
    [KeyboardInterrupt]. *)
Record World : Type := {
  set_udp_receive_callback : result unit;
  register_session : string -> result N;
  forward_open : result unit;
  send_udp_explicitly : bytes -> result unit;
  t_o_iodata : nat -> bytes;
  time_sleep : nat -> result unit;
  forward_close : result unit;
  unregister_session : result unit
}.

(** ** [MessageProcessor.process] *)

(** The condition of line 30, [data and (data[0] & 0x01)]: [and] only
    evaluates its right operand when the left one is true. *)
Definition sensor_bit_set (data : bytes) : M bool :=
  if bytes_truthy data
  then (b0 <- getitem data 0 ;; ret (int_truthy (N.land b0 1)))
  else ret false.

Definition ack : bytes := [xac].

Definition process (w : World) (data : bytes) : M unit :=
  print ("[CALLBACK] Received UDP data from PLC: " ++ bytes_hex data) ;;
  c <- sensor_bit_set data ;;
  if c then
    print "Sensor event detected! Sending acknowledgment..." ;;
    call (SendUdpExplicitly ack) (send_udp_explicitly w ack) ;;
    print "Acknowledgment sent."
  else
    print "No sensor event in this packet.".

(** ** [main] *)

Definition target_ip : string := "192.168.1.10".

Definition input_line (cache : bytes) : string :=
  "Input bytes: " ++ str_list (list_of_bytes (slice_to 8 cache)).

(** One iteration of the loop of lines 59-62. *)
Definition monitor_step (w : World) (i : nat) : M unit :=
  print (input_line (t_o_iodata w i)) ;;
  call (Sleep 1) (time_sleep w i).

(** The [finally] block of lines 65-69. *)
Definition teardown (w : World) : M unit :=
  print "Closing connection and unregistering session..." ;;
  call ForwardClose (forward_close w) ;;
  call UnregisterSession (unregister_session w) ;;
  print "Done.".

(** The [try] and [except] clauses of lines 57-64. *)
Definition guarded_wait (w : World) : M unit :=
  try_except
    (for_each (range 30) (monitor_step w))
    KeyboardInterrupt
    (print "Interrupted by user.").

(** Lines 57-69. *)
Definition monitoring (w : World) : M unit :=
  try_finally (guarded_wait w) (teardown w).

Definition main (w : World) : M unit :=
  call SetUdpReceiveCallback (set_udp_receive_callback w) ;;
  print ("Registering session with " ++ target_ip ++ "...") ;;
  session_handle <- call (RegisterSession target_ip) (register_session w target_ip) ;;
  print ("Session handle: " ++ str_int session_handle) ;;
  print "Opening implicit messaging connection (Forward Open)..." ;;
  call ForwardOpen (forward_open w) ;;
  print "Connection established. Waiting for sensor events from PLC..." ;;
  monitoring w.

(** ** Observations on traces *)

(** The datagrams handed to [send_udp_explicitly], in order. *)
Fixpoint sent_datagrams (t : list event) : list bytes :=
  match t with
  | [] => []
  | SendUdpExplicitly d :: t' => d :: sent_datagrams t'
  | _ :: t' => sent_datagrams t'
  end.

Definition is_forward_close (ev : event) : bool :=
  match ev with ForwardClose => true | _ => false end.

Definition is_unregister (ev : event) : bool :=
  match ev with UnregisterSession => true | _ => false end.

Definition is_teardown_call (ev : event) : bool :=
  is_forward_close ev || is_unregister ev.

(** The calls that drive the session life cycle. *)
Definition is_lifecycle_call (ev : event) : bool :=
  match ev with
  | SetUdpReceiveCallback | RegisterSession _ | ForwardOpen
  | ForwardClose | UnregisterSession => true
  | _ => false
  end.

Definition is_sleep (ev : event) : bool :=
  match ev with Sleep _ => true | _ => false end.

(** Everything but printing: the calls on the client and the waits. *)
Definition is_call (ev : event) : bool :=
  match ev with Print _ => false | _ => true end.


(** What the foreground loop alone can produce. *)
Definition is_foreground (ev : event) : bool :=
  match ev with Print _ | Sleep _ => true | _ => false end.

(** How often a kind of call was made. *)
Definition calls (p : event -> bool) (t : list event) : nat :=
  List.length (filter p t).

(** [p[0]] as an integer; [0] stands in when [p] is empty, where Python does
    not evaluate it. *)
Definition first_byte (p : bytes) : N := nth 0 (list_of_bytes p) 0%N.

(** The decision of section 4.3, in the words of the specification. *)
Inductive decision : Type :=
| Ignore
| Acknowledge (datagram : bytes).

Definition decide_reference (p : bytes) : decision :=
  if Nat.ltb 0 (List.length p) && N.eqb (N.land (first_byte p) 1) 1
  then Acknowledge [xac]
  else Ignore.

(** ** Runs *)

(** The run gets as far as the [try] statement: the callback is installed,
    the session registered and the connection opened. *)
Definition reaches_monitoring (w : World) : Prop :=
  set_udp_receive_callback w = Ret tt /\
  (exists h, register_session w target_ip = Ret h) /\
  forward_open w = Ret tt.

(** No wait of the loop raises. *)
Definition uninterrupted (w : World) : Prop :=
  forall i, i < 30 -> time_sleep w i = Ret tt.

(** The wait of iteration [k] is the first to raise, with
    [KeyboardInterrupt]. *)
Definition interrupted_at (w : World) (k : nat) : Prop :=
  k < 30 /\
  time_sleep w k = Raise KeyboardInterrupt /\
  forall j, j < k -> time_sleep w j = Ret tt.

(** The events of the loop's iterations [a, a + n). *)
Definition iterations (w : World) (a n : nat) : list event :=
  flat_map (fun i => [Print (input_line (t_o_iodata w i)); Sleep 1]) (seq a n).

(** What [main] does before the [try] statement. *)
Definition prologue (h : N) : list event :=
  [ SetUdpReceiveCallback;
    Print "Registering session with 192.168.1.10...";
    RegisterSession target_ip;
    Print ("Session handle: " ++ str_int h);
    Print "Opening implicit messaging connection (Forward Open)...";
    ForwardOpen;
    Print "Connection established. Waiting for sensor events from PLC..." ].

(** A controller that accepts everything, and thirty quiet seconds. *)
Definition nominal_world : World := {|
  set_udp_receive_callback := Ret tt;
  register_session := fun _ => Ret 7%N;
  forward_open := Ret tt;
  send_udp_explicitly := fun _ => Ret tt;
  t_o_iodata := fun _ => [x01; x00; x00; x00; x00; x00; x00; x00; x2a];
  time_sleep := fun _ => Ret tt;
  forward_close := Ret tt;
  unregister_session := Ret tt
|}.

(** Ctrl-C during the third wait. *)
Definition interrupted_world : World := {|
  set_udp_receive_callback := Ret tt;
  register_session := fun _ => Ret 7%N;
  forward_open := Ret tt;
  send_udp_explicitly := fun _ => Ret tt;
  t_o_iodata := fun _ => [x01];
  time_sleep := fun i => if Nat.eqb i 2 then Raise KeyboardInterrupt else Ret tt;
  forward_close := Ret tt;
  unregister_session := Ret tt
|}.

(** The controller registers the session and then rejects the forward
    open. *)
Definition connect_fails_world : World := {|
  set_udp_receive_callback := Ret tt;
  register_session := fun _ => Ret 7%N;
  forward_open := Raise ConnectionError;
  send_udp_explicitly := fun _ => Ret tt;
  t_o_iodata := fun _ => [];
  time_sleep := fun _ => Ret tt;
  forward_close := Ret tt;
  unregister_session := Ret tt
|}.

(** Ctrl-C during the third wait, and the forward close fails. *)
Definition close_fails_world : World := {|
  set_udp_receive_callback := Ret tt;
  register_session := fun _ => Ret 7%N;
  forward_open := Ret tt;
  send_udp_explicitly := fun _ => Ret tt;
  t_o_iodata := fun _ => [];
  time_sleep := fun i => if Nat.eqb i 2 then Raise KeyboardInterrupt else Ret tt;
  forward_close := Raise ConnectionError;
  unregister_session := Ret tt
|}.

(** Every explicit send fails. *)
Definition send_fails_world : World := {|
  set_udp_receive_callback := Ret tt;
  register_session := fun _ => Ret 7%N;
  forward_open := Ret tt;
  send_udp_explicitly := fun _ => Raise SendError;
  t_o_iodata := fun _ => [];
  time_sleep := fun _ => Ret tt;
  forward_close := Ret tt;
  unregister_session := Ret tt
|}.


(** The order of life-cycle calls with the callback installed once the
    connection is open. *)
Definition callback_after_connect : list event :=
  [RegisterSession target_ip; ForwardOpen; SetUdpReceiveCallback;
   ForwardClose; UnregisterSession].

(** The order of life-cycle calls of [main]. *)
Definition callback_first : list event :=
  [SetUdpReceiveCallback; RegisterSession target_ip; ForwardOpen;
   ForwardClose; UnregisterSession].

(** The wait of iteration [k] is the first to raise, with [e]. *)
Definition raises_at (w : World) (k : nat) (e : exn) : Prop :=
  k < 30 /\
  time_sleep w k = Raise e /\
  forall j, j < k -> time_sleep w j = Ret tt.

(** The controller refuses the registration. *)
Definition register_fails_world : World := {|
  set_udp_receive_callback := Ret tt;
  register_session := fun _ => Raise RegistrationError;
  forward_open := Ret tt;
  send_udp_explicitly := fun _ => Ret tt;
  t_o_iodata := fun _ => [];
  time_sleep := fun _ => Ret tt;
  forward_close := Ret tt;
  unregister_session := Ret tt
|}.

(** The third wait fails with an exception other than
    [KeyboardInterrupt]. *)
Definition wait_fails_world : World := {|
  set_udp_receive_callback := Ret tt;
  register_session := fun _ => Ret 7%N;
  forward_open := Ret tt;
  send_udp_explicitly := fun _ => Ret tt;
  t_o_iodata := fun _ => [x02; x01];
  time_sleep := fun i => if Nat.eqb i 2 then Raise Exception_ else Ret tt;
  forward_close := Ret tt;
  unregister_session := Ret tt
|}.

(** The second wait fails, and then so does the unregistration. *)
Definition unregister_fails_world : World := {|
  set_udp_receive_callback := Ret tt;
  register_session := fun _ => Ret 7%N;
  forward_open := Ret tt;
  send_udp_explicitly := fun _ => Ret tt;
  t_o_iodata := fun _ => [];
  time_sleep := fun i => if Nat.eqb i 1 then Raise Exception_ else Ret tt;
  forward_close := Ret tt;
  unregister_session := Raise ConnectionError
|}.

(** * Properties *)

(** ** The monad *)

Section MonadFacts.
Context {A B : Type}.

Lemma M_eta (m : M A) : m = (trace m, outcome m).
Proof. destruct m; reflexivity. Qed.

Lemma bind_ret_eq (t : list event) (a : A) (k : A -> M B) :
  bind (t, Ret a) k = (t ++ trace (k a), outcome (k a)).
Proof. unfold bind. destruct (k a); reflexivity. Qed.

Lemma bind_raise_eq (t : list event) (e : exn) (k : A -> M B) :
  bind (t, Raise e) k = (t, Raise e).
Proof. reflexivity. Qed.

End MonadFacts.

Lemma try_finally_trace (body cleanup : M unit) :
  trace (try_finally body cleanup) = trace body ++ trace cleanup.
Proof.
  unfold try_finally.
  destruct body as [t r], cleanup as [t' [u|e]]; reflexivity.
Qed.

Lemma try_finally_outcome (body cleanup : M unit) :
  outcome (try_finally body cleanup) =
  match outcome cleanup with
  | Ret _ => outcome body
  | Raise e => Raise e
  end.
Proof.
  unfold try_finally.
  destruct body as [t r], cleanup as [t' [u|e]]; reflexivity.
Qed.

(** ** The foreground loop *)

Lemma monitor_step_eq (w : World) (i : nat) :
  monitor_step w i =
  ([Print (input_line (t_o_iodata w i)); Sleep 1], time_sleep w i).
Proof. reflexivity. Qed.

Lemma for_each_step_ret (w : World) (i : nat) (xs : list nat) :
  time_sleep w i = Ret tt ->
  for_each (i :: xs) (monitor_step w) =
  (Print (input_line (t_o_iodata w i)) :: Sleep 1
     :: trace (for_each xs (monitor_step w)),
   outcome (for_each xs (monitor_step w))).
Proof.
  intros Hs. cbn [for_each]. rewrite monitor_step_eq, Hs.
  now rewrite bind_ret_eq.
Qed.

Lemma for_each_step_raise (w : World) (i : nat) (xs : list nat) (e : exn) :
  time_sleep w i = Raise e ->
  for_each (i :: xs) (monitor_step w) =
  ([Print (input_line (t_o_iodata w i)); Sleep 1], Raise e).
Proof.
  intros Hs. cbn [for_each]. now rewrite monitor_step_eq, Hs.
Qed.

(** Whatever the waits do, the loop only prints and sleeps. *)
Lemma loop_foreground (w : World) (xs : list nat) :
  Forall (fun ev => is_foreground ev = true)
         (trace (for_each xs (monitor_step w))).
Proof.
  induction xs as [|i xs IH].
  - constructor.
  - destruct (time_sleep w i) as [[]|e] eqn:Hs.
    + rewrite (for_each_step_ret _ _ _ Hs). cbn [trace fst].
      repeat constructor. exact IH.
    + rewrite (for_each_step_raise _ _ _ _ Hs). cbn [trace fst].
      repeat constructor.
Qed.

Lemma loop_uninterrupted (w : World) (n a : nat) :
  (forall i, a <= i < a + n -> time_sleep w i = Ret tt) ->
  for_each (seq a n) (monitor_step w) = (iterations w a n, Ret tt).
Proof.
  revert a. induction n as [|n IH]; intros a Hs.
  - reflexivity.
  - cbn [seq]. rewrite for_each_step_ret by (apply Hs; lia).
    rewrite IH by (intros i Hi; apply Hs; lia).
    reflexivity.
Qed.

Lemma loop_interrupted (w : World) (e : exn) (n a k : nat) :
  a <= k < a + n ->
  time_sleep w k = Raise e ->
  (forall j, a <= j < k -> time_sleep w j = Ret tt) ->
  for_each (seq a n) (monitor_step w) =
  (iterations w a (k - a) ++ [Print (input_line (t_o_iodata w k)); Sleep 1],
   Raise e).
Proof.
  revert a. induction n as [|n IH]; intros a Hk He Hs.
  - lia.
  - cbn [seq]. destruct (Nat.eq_dec a k) as [->|Hne].
    + rewrite (for_each_step_raise _ _ _ _ He).
      replace (k - k) with 0 by lia. reflexivity.
    + rewrite for_each_step_ret by (apply Hs; lia).
      rewrite IH by (try assumption; try lia; intros j Hj; apply Hs; lia).
      replace (k - a) with (S (k - S a)) by lia.
      reflexivity.
Qed.

Lemma iterations_foreground (w : World) (a n : nat) :
  Forall (fun ev => is_foreground ev = true) (iterations w a n).
Proof.
  unfold iterations. revert a.
  induction n as [|n IH]; intros a; cbn [seq flat_map app].
  - constructor.
  - repeat constructor. apply IH.
Qed.

Lemma iterations_sleeps (w : World) (a n : nat) :
  calls is_sleep (iterations w a n) = n.
Proof.
  unfold calls, iterations. revert a.
  induction n as [|n IH]; intros a; cbn [seq flat_map app filter is_sleep].
  - reflexivity.
  - cbn [List.length]. now rewrite IH.
Qed.

(** A filter that rejects what the foreground loop produces leaves nothing
    of it. *)
Lemma filter_foreground (p : event -> bool) (t : list event) :
  (forall ev, is_foreground ev = true -> p ev = false) ->
  Forall (fun ev => is_foreground ev = true) t ->
  filter p t = [].
Proof.
  intros Hp Ht. induction Ht as [|ev t Hev _ IH].
  - reflexivity.
  - cbn [filter]. now rewrite (Hp _ Hev).
Qed.

Lemma iterations_calls (w : World) (a n : nat) :
  filter is_call (iterations w a n) = repeat (Sleep 1) n.
Proof.
  unfold iterations. revert a.
  induction n as [|n IH]; intros a; cbn [seq flat_map app filter is_call repeat].
  - reflexivity.
  - now rewrite IH.
Qed.

(** ** The [try] statement *)

Lemma guarded_wait_foreground (w : World) :
  Forall (fun ev => is_foreground ev = true) (trace (guarded_wait w)).
Proof.
  unfold guarded_wait, try_except.
  pose proof (loop_foreground w (range 30)) as Hl.
  destruct (for_each (range 30) (monitor_step w)) as [t [[]|e]].
  - exact Hl.
  - destruct (exn_eqb e KeyboardInterrupt); cbn [trace fst print] in *.
    + apply Forall_app. split; [exact Hl | repeat constructor].
    + exact Hl.
Qed.

Lemma guarded_wait_uninterrupted (w : World) :
  uninterrupted w ->
  guarded_wait w = (iterations w 0 30, Ret tt).
Proof.
  intros Hs. unfold guarded_wait, range.
  rewrite loop_uninterrupted by (intros i Hi; apply Hs; lia).
  reflexivity.
Qed.

Lemma guarded_wait_interrupted (w : World) (k : nat) :
  interrupted_at w k ->
  guarded_wait w =
  (iterations w 0 k ++
     [Print (input_line (t_o_iodata w k)); Sleep 1;
      Print "Interrupted by user."],
   Ret tt).
Proof.
  intros (Hk & Hki & Hs). unfold guarded_wait, range.
  rewrite (loop_interrupted w KeyboardInterrupt 30 0 k)
    by (try assumption; try lia; intros j Hj; apply Hs; lia).
  cbn [try_except exn_eqb print]. rewrite Nat.sub_0_r, <- app_assoc.
  reflexivity.
Qed.

Lemma teardown_close_ret (w : World) :
  forward_close w = Ret tt ->
  teardown w =
  (Print "Closing connection and unregistering session..."
     :: ForwardClose :: UnregisterSession
     :: match unregister_session w with
        | Ret _ => [Print "Done."]
        | Raise _ => []
        end,
   unregister_session w).
Proof.
  intros Hc. unfold teardown. rewrite Hc.
  destruct (unregister_session w) as [[]|e]; reflexivity.
Qed.

Lemma teardown_close_raise (w : World) (e : exn) :
  forward_close w = Raise e ->
  teardown w =
  ([Print "Closing connection and unregistering session..."; ForwardClose],
   Raise e).
Proof. intros Hc. unfold teardown. now rewrite Hc. Qed.

Lemma monitoring_eq (w : World) :
  monitoring w =
  (trace (guarded_wait w) ++ trace (teardown w),
   match outcome (teardown w) with
   | Ret _ => outcome (guarded_wait w)
   | Raise e => Raise e
   end).
Proof.
  rewrite (M_eta (monitoring w)). unfold monitoring.
  now rewrite try_finally_trace, try_finally_outcome.
Qed.

(** ** [main] up to the [try] statement *)

Lemma main_connected (w : World) (h : N) :
  set_udp_receive_callback w = Ret tt ->
  register_session w target_ip = Ret h ->
  forward_open w = Ret tt ->
  main w = (prologue h ++ trace (monitoring w), outcome (monitoring w)).
Proof.
  intros Hcb Hreg Hopen. unfold main. rewrite Hcb, Hreg, Hopen.
  unfold call, print. rewrite !bind_ret_eq. reflexivity.
Qed.

Lemma main_connect_raise (w : World) (h : N) (e : exn) :
  set_udp_receive_callback w = Ret tt ->
  register_session w target_ip = Ret h ->
  forward_open w = Raise e ->
  main w =
  ([ SetUdpReceiveCallback;
     Print "Registering session with 192.168.1.10...";
     RegisterSession target_ip;
     Print ("Session handle: " ++ str_int h);
     Print "Opening implicit messaging connection (Forward Open)...";
     ForwardOpen ],
   Raise e).
Proof.
  intros Hcb Hreg Hopen. unfold main. rewrite Hcb, Hreg, Hopen.
  reflexivity.
Qed.

(** The run of [main] when the waits all return. *)
Lemma main_uninterrupted (w : World) (h : N) :
  set_udp_receive_callback w = Ret tt ->
  register_session w target_ip = Ret h ->
  forward_open w = Ret tt ->
  uninterrupted w ->
  main w =
  (prologue h ++ iterations w 0 30 ++ trace (teardown w),
   outcome (teardown w)).
Proof.
  intros Hcb Hreg Hopen Hs.
  rewrite (main_connected w h Hcb Hreg Hopen), monitoring_eq.
  rewrite (guarded_wait_uninterrupted w Hs). cbn [trace outcome fst snd].
  destruct (teardown w) as [t [[]|e]]; reflexivity.
Qed.

(** The run of [main] when the wait of iteration [k] is interrupted. *)
Lemma main_interrupted (w : World) (h : N) (k : nat) :
  set_udp_receive_callback w = Ret tt ->
  register_session w target_ip = Ret h ->
  forward_open w = Ret tt ->
  interrupted_at w k ->
  main w =
  (prologue h ++
     (iterations w 0 k ++
        [Print (input_line (t_o_iodata w k)); Sleep 1;
         Print "Interrupted by user."]) ++
     trace (teardown w),
   outcome (teardown w)).
Proof.
  intros Hcb Hreg Hopen Hk.
  rewrite (main_connected w h Hcb Hreg Hopen), monitoring_eq.
  rewrite (guarded_wait_interrupted w k Hk). cbn [trace outcome fst snd].
  destruct (teardown w) as [t [[]|e]]; reflexivity.
Qed.

(** Counting a kind of call that the foreground loop never makes. *)
Lemma filter_main_connected (p : event -> bool) (w : World) (h : N) :
  (forall ev, is_foreground ev = true -> p ev = false) ->
  set_udp_receive_callback w = Ret tt ->
  register_session w target_ip = Ret h ->
  forward_open w = Ret tt ->
  filter p (trace (main w)) =
  filter p (prologue h) ++ filter p (trace (teardown w)).
Proof.
  intros Hp Hcb Hreg Hopen.
  rewrite (main_connected w h Hcb Hreg Hopen), monitoring_eq.
  cbn [trace fst]. rewrite !filter_app.
  now rewrite (filter_foreground p _ Hp (guarded_wait_foreground w)).
Qed.

(** ** The receive callback *)

Lemma process_empty (w : World) :
  process w [] =
  ([Print "[CALLBACK] Received UDP data from PLC: ";
    Print "No sensor event in this packet."],
   Ret tt).
Proof. reflexivity. Qed.

(** Line 30 on a non-empty payload: the truth value of the lowest bit of the
    first byte, and no [IndexError]. *)
Lemma sensor_bit_set_cons (b : byte) (rest : bytes) :
  sensor_bit_set (b :: rest) = ret (int_truthy (N.land (Byte.to_N b) 1)).
Proof. reflexivity. Qed.

Lemma process_event (w : World) (b : byte) (rest : bytes) :
  int_truthy (N.land (Byte.to_N b) 1) = true ->
  process w (b :: rest) =
  (Print ("[CALLBACK] Received UDP data from PLC: " ++ bytes_hex (b :: rest))
     :: Print "Sensor event detected! Sending acknowledgment..."
     :: SendUdpExplicitly ack
     :: match send_udp_explicitly w ack with
        | Ret _ => [Print "Acknowledgment sent."]
        | Raise _ => []
        end,
   send_udp_explicitly w ack).
Proof.
  intros Hbit. unfold process. rewrite sensor_bit_set_cons, Hbit.
  unfold print, call, ret. rewrite !bind_ret_eq.
  destruct (send_udp_explicitly w ack) as [[]|e]; reflexivity.
Qed.

Lemma process_no_event (w : World) (b : byte) (rest : bytes) :
  int_truthy (N.land (Byte.to_N b) 1) = false ->
  process w (b :: rest) =
  ([Print ("[CALLBACK] Received UDP data from PLC: " ++ bytes_hex (b :: rest));
    Print "No sensor event in this packet."],
   Ret tt).
Proof.
  intros Hbit. unfold process. rewrite sensor_bit_set_cons, Hbit.
  reflexivity.
Qed.

Lemma sent_datagrams_process_event (w : World) (b : byte) (rest : bytes) :
  int_truthy (N.land (Byte.to_N b) 1) = true ->
  sent_datagrams (trace (process w (b :: rest))) = [ack].
Proof.
  intros Hbit. rewrite (process_event w b rest Hbit). cbn [trace fst].
  destruct (send_udp_explicitly w ack); reflexivity.
Qed.

Lemma sent_datagrams_process_no_event (w : World) (p : bytes) :
  p = [] \/ int_truthy (N.land (first_byte p) 1) = false ->
  sent_datagrams (trace (process w p)) = [].
Proof.
  destruct p as [|b rest]; intros H.
  - reflexivity.
  - destruct H as [H|H]; [discriminate|].
    now rewrite (process_no_event w b rest H).
Qed.

(** C1. The acknowledgment decision of [process] is the reference policy:
    a payload with [len(p) > 0] and [p[0] & 1 == 1] makes [process] send
    exactly one datagram, the single byte 0xAC; a payload with [len(p) == 0]
    or [p[0] & 1 == 0] makes it send nothing.  This holds whether the send
    itself returns or raises. *)
Theorem process_acknowledgment_policy (w : World) (p : bytes) :
  (0 < List.length p /\ N.land (first_byte p) 1 = 1%N ->
   sent_datagrams (trace (process w p)) = [[xac]]) /\
  (List.length p = 0 \/ N.land (first_byte p) 1 = 0%N ->
   sent_datagrams (trace (process w p)) = []).
Proof.
  split.
  - intros [Hlen Hbit]. destruct p as [|b rest]; [cbn in Hlen; lia|].
    apply sent_datagrams_process_event.
    change (first_byte (b :: rest)) with (Byte.to_N b) in Hbit.
    now rewrite Hbit.
  - intros H. apply sent_datagrams_process_no_event.
    destruct H as [Hlen|Hbit].
    + left. now destruct p.
    + right. now rewrite Hbit.
Qed.

(** The policy of C1 at the payloads of scenarios A and B. *)
Lemma process_acknowledgment_policy_witness :
  sent_datagrams (trace (process nominal_world [x01])) = [[xac]] /\
  sent_datagrams (trace (process nominal_world [x02])) = [].
Proof.
  split.
  - apply (proj1 (process_acknowledgment_policy nominal_world [x01])).
    split; [cbn; lia | reflexivity].
  - apply (proj2 (process_acknowledgment_policy nominal_world [x02])).
    right. reflexivity.
Defined.

(** The decision of [process], read off the datagrams it sends, is
    [decide_reference]. *)
Lemma process_refines_decide_reference (w : World) (p : bytes) :
  sent_datagrams (trace (process w p)) =
  match decide_reference p with
  | Acknowledge d => [d]
  | Ignore => []
  end.
Proof.
  unfold decide_reference. destruct p as [|b rest].
  - reflexivity.
  - change (first_byte (b :: rest)) with (Byte.to_N b).
    cbn [List.length Nat.ltb Nat.leb andb].
    destruct (N.eqb_spec (N.land (Byte.to_N b) 1) 1) as [Hbit|Hbit].
    + apply sent_datagrams_process_event. now rewrite Hbit.
    + apply sent_datagrams_process_no_event. right.
      change (first_byte (b :: rest)) with (Byte.to_N b).
      unfold int_truthy.
      assert (Hlt : (N.land (Byte.to_N b) 1 < 2)%N).
      { change 1%N with (N.ones 1). rewrite N.land_ones.
        apply N.mod_lt. discriminate. }
      destruct (N.eqb_spec (N.land (Byte.to_N b) 1) 0); [reflexivity|lia].
Qed.

(** C5 as stated fails: with a send that raises [SendError], processing the
    payload [b'\x01'] attempts the send and ends by raising [SendError]; the
    invocation does not complete normally. *)
Lemma process_send_failure_propagates_example :
  sent_datagrams (trace (process send_fails_world [x01])) = [[xac]] /\
  outcome (process send_fails_world [x01]) = Raise SendError /\
  outcome (process send_fails_world [x01]) <> Ret tt.
Proof. split; [reflexivity | split; [reflexivity | discriminate]]. Qed.

(** C5, amended.  [process] has no handler around the send: for every
    payload whose processing triggers a send, if the send raises [e] then the
    invocation ends by raising [e] to its caller, right after the send
    attempt and without printing "Acknowledgment sent.". *)
Theorem process_send_failure_propagates (w : World) (p : bytes) (e : exn) :
  sent_datagrams (trace (process w p)) <> [] ->
  send_udp_explicitly w ack = Raise e ->
  outcome (process w p) = Raise e /\
  trace (process w p) =
  [Print ("[CALLBACK] Received UDP data from PLC: " ++ bytes_hex p);
   Print "Sensor event detected! Sending acknowledgment...";
   SendUdpExplicitly ack].
Proof.
  intros Hsend He. destruct p as [|b rest].
  - now contradiction Hsend.
  - destruct (int_truthy (N.land (Byte.to_N b) 1)) eqn:Hbit.
    + rewrite (process_event w b rest Hbit), He. now split.
    + rewrite (process_no_event w b rest Hbit) in Hsend.
      now contradiction Hsend.
Qed.

Lemma process_send_failure_propagates_witness :
  outcome (process send_fails_world [x01]) = Raise SendError /\
  trace (process send_fails_world [x01]) =
  [Print "[CALLBACK] Received UDP data from PLC: 01";
   Print "Sensor event detected! Sending acknowledgment...";
   SendUdpExplicitly ack].
Proof.
  apply (process_send_failure_propagates send_fails_world [x01] SendError).
  - discriminate.
  - reflexivity.
Defined.








(** C8.  The empty payload is safe: [process] on [b''] returns normally, in
    every world; the first-byte test is not evaluated, so no [IndexError]
    arises; nothing is sent and the payload is reported as carrying no
    sensor event. *)
Theorem process_empty_payload_ignored (w : World) :
  outcome (process w []) = Ret tt /\
  outcome (sensor_bit_set []) = Ret false /\
  sent_datagrams (trace (process w [])) = [] /\
  trace (process w []) =
  [Print "[CALLBACK] Received UDP data from PLC: ";
   Print "No sensor event in this packet."].
Proof. now rewrite process_empty. Qed.

(** ** The session life cycle *)

Lemma foreground_not_unregister (ev : event) :
  is_foreground ev = true -> is_unregister ev = false.
Proof. destruct ev; cbn; congruence. Qed.

Lemma foreground_not_forward_close (ev : event) :
  is_foreground ev = true -> is_forward_close ev = false.
Proof. destruct ev; cbn; congruence. Qed.

Lemma foreground_not_teardown_call (ev : event) :
  is_foreground ev = true -> is_teardown_call ev = false.
Proof. destruct ev; cbn; congruence. Qed.

Lemma foreground_not_lifecycle_call (ev : event) :
  is_foreground ev = true -> is_lifecycle_call ev = false.
Proof. destruct ev; cbn; congruence. Qed.

Lemma teardown_sleeps (w : World) :
  filter is_sleep (trace (teardown w)) = [].
Proof.
  unfold teardown.
  destruct (forward_close w) as [[]|e]; [|reflexivity].
  destruct (unregister_session w) as [[]|e]; reflexivity.
Qed.

Lemma nominal_world_reaches_monitoring : reaches_monitoring nominal_world.
Proof. repeat split. now exists 7%N. Qed.

Lemma nominal_world_uninterrupted : uninterrupted nominal_world.
Proof. intros i _. reflexivity. Qed.

Lemma interrupted_world_reaches_monitoring : reaches_monitoring interrupted_world.
Proof. repeat split. now exists 7%N. Qed.

Lemma interrupted_world_interrupted_at : interrupted_at interrupted_world 2.
Proof.
  split; [lia|]. split; [reflexivity|].
  intros [|[|j]] Hj; [reflexivity | reflexivity | lia].
Qed.

Lemma close_fails_world_reaches_monitoring : reaches_monitoring close_fails_world.
Proof. repeat split. now exists 7%N. Qed.

(** C2 as stated fails: when the controller registers the session and then
    rejects the forward open, [main] ends by raising [ConnectionError] and
    has never called [unregister_session]. *)
Lemma main_connect_failure_example :
  register_session connect_fails_world target_ip = Ret 7%N /\
  forward_open connect_fails_world = Raise ConnectionError /\
  calls is_unregister (trace (main connect_fails_world)) = 0 /\
  outcome (main connect_fails_world) = Raise ConnectionError.
Proof. repeat split. Qed.

(** C2, amended.  Once the session is registered: if the forward open
    returns and the forward close returns, [unregister_session] is called
    exactly once, however the waits of the monitoring loop end; if the
    forward open raises, [main] ends with that exception before its [try]
    statement and calls neither [forward_close] nor [unregister_session]. *)
Theorem main_unregisters_once_when_connected (w : World) (h : N) :
  set_udp_receive_callback w = Ret tt ->
  register_session w target_ip = Ret h ->
  (forward_open w = Ret tt -> forward_close w = Ret tt ->
   calls is_unregister (trace (main w)) = 1) /\
  (forall e, forward_open w = Raise e ->
   calls is_unregister (trace (main w)) = 0 /\
   calls is_forward_close (trace (main w)) = 0 /\
   outcome (main w) = Raise e).
Proof.
  intros Hcb Hreg. split.
  - intros Hopen Hclose. unfold calls.
    rewrite (filter_main_connected _ w h foreground_not_unregister Hcb Hreg Hopen).
    rewrite (teardown_close_ret w Hclose). cbn [trace fst].
    now destruct (unregister_session w).
  - intros e Hopen. rewrite (main_connect_raise w h e Hcb Hreg Hopen).
    now repeat split.
Qed.

Lemma main_unregisters_once_when_connected_witness :
  calls is_unregister (trace (main interrupted_world)) = 1 /\
  calls is_unregister (trace (main connect_fails_world)) = 0.
Proof.
  split.
  - apply (proj1 (main_unregisters_once_when_connected
                    interrupted_world 7 eq_refl eq_refl)); reflexivity.
  - apply (proj2 (main_unregisters_once_when_connected
                    connect_fails_world 7 eq_refl eq_refl) ConnectionError).
    reflexivity.
Defined.

Lemma close_fails_world_interrupted_at : interrupted_at close_fails_world 2.
Proof.
  split; [lia|]. split; [reflexivity|].
  intros [|[|j]] Hj; [reflexivity | reflexivity | lia].
Qed.

Lemma teardown_starts_with_close (w : World) :
  exists rest,
    trace (teardown w) =
    [Print "Closing connection and unregistering session..."; ForwardClose]
      ++ rest /\
    filter is_forward_close rest = [].
Proof.
  unfold teardown.
  destruct (forward_close w) as [[]|e]; [|now exists []].
  destruct (unregister_session w) as [[]|e]; eexists; split; reflexivity.
Qed.

(** C3 as stated fails: with the third wait ended by [KeyboardInterrupt]
    and a forward close that raises, [forward_close] is the only teardown
    call of the run; [unregister_session] is not invoked. *)
Lemma main_interrupt_close_failure_example :
  reaches_monitoring close_fails_world /\
  interrupted_at close_fails_world 2 /\
  filter is_teardown_call (trace (main close_fails_world)) = [ForwardClose] /\
  calls is_unregister (trace (main close_fails_world)) = 0.
Proof.
  split; [exact close_fails_world_reaches_monitoring|].
  split; [exact close_fails_world_interrupted_at|].
  split; reflexivity.
Qed.

(** C3, amended.  When a wait of the monitoring loop is ended by
    [KeyboardInterrupt], [main] calls [forward_close] exactly once, after
    the interrupted wait and before any other teardown call.  If
    [forward_close] returns, [unregister_session] is called after it,
    exactly once, and the two are all the teardown calls of the run, in
    that order; if [forward_close] raises, it is the only teardown call. *)
Theorem main_interrupt_closes_then_unregisters (w : World) (k : nat) :
  reaches_monitoring w ->
  interrupted_at w k ->
  (exists before after,
     trace (main w) =
     before ++
     [Sleep 1; Print "Interrupted by user.";
      Print "Closing connection and unregistering session...";
      ForwardClose] ++ after /\
     filter is_teardown_call before = [] /\
     filter is_forward_close after = []) /\
  (forward_close w = Ret tt ->
   filter is_teardown_call (trace (main w)) = [ForwardClose; UnregisterSession]) /\
  (forall e, forward_close w = Raise e ->
   filter is_teardown_call (trace (main w)) = [ForwardClose]).
Proof.
  intros (Hcb & [h Hreg] & Hopen) Hk. split; [|split].
  - rewrite (main_interrupted w h k Hcb Hreg Hopen Hk). cbn [trace fst].
    destruct (teardown_starts_with_close w) as (rest & Htd & Hrest).
    rewrite Htd.
    exists (prologue h ++ iterations w 0 k ++ [Print (input_line (t_o_iodata w k))]).
    exists rest.
    split; [|split].
    + rewrite <- !app_assoc. reflexivity.
    + rewrite !filter_app.
      rewrite (filter_foreground _ _ foreground_not_teardown_call
                 (iterations_foreground w 0 k)).
      reflexivity.
    + exact Hrest.
  - intros Hclose.
    rewrite (filter_main_connected _ w h foreground_not_teardown_call Hcb Hreg Hopen).
    rewrite (teardown_close_ret w Hclose). cbn [trace fst].
    now destruct (unregister_session w).
  - intros e Hclose.
    rewrite (filter_main_connected _ w h foreground_not_teardown_call Hcb Hreg Hopen).
    now rewrite (teardown_close_raise w e Hclose).
Qed.

Lemma main_interrupt_closes_then_unregisters_witness :
  filter is_teardown_call (trace (main interrupted_world)) =
  [ForwardClose; UnregisterSession].
Proof.
  apply (proj1 (proj2 (main_interrupt_closes_then_unregisters
                         interrupted_world 2
                         interrupted_world_reaches_monitoring
                         interrupted_world_interrupted_at))).
  reflexivity.
Defined.

(** C4 as stated fails: with a forward close that raises, [main] calls
    [forward_close] once and never calls [unregister_session]. *)
Lemma main_close_failure_example :
  forward_close close_fails_world = Raise ConnectionError /\
  calls is_forward_close (trace (main close_fails_world)) = 1 /\
  calls is_unregister (trace (main close_fails_world)) = 0.
Proof. repeat split. Qed.

(** C4, amended.  The teardown steps run in sequence inside one [finally]
    block.  Once the [try] statement is reached, [forward_close] is
    attempted exactly once however the waits end; [unregister_session] is
    attempted, once, when [forward_close] returns; when [forward_close]
    raises, [unregister_session] is not attempted and [main] ends with that
    exception. *)
Theorem main_teardown_is_sequential (w : World) :
  reaches_monitoring w ->
  calls is_forward_close (trace (main w)) = 1 /\
  (forward_close w = Ret tt -> calls is_unregister (trace (main w)) = 1) /\
  (forall e, forward_close w = Raise e ->
   calls is_unregister (trace (main w)) = 0 /\ outcome (main w) = Raise e).
Proof.
  intros (Hcb & [h Hreg] & Hopen). unfold calls.
  rewrite (filter_main_connected _ w h foreground_not_forward_close Hcb Hreg Hopen).
  rewrite (filter_main_connected _ w h foreground_not_unregister Hcb Hreg Hopen).
  split; [|split].
  - unfold teardown.
    destruct (forward_close w) as [[]|e]; [|reflexivity].
    now destruct (unregister_session w) as [[]|e].
  - intros Hclose. rewrite (teardown_close_ret w Hclose). cbn [trace fst].
    now destruct (unregister_session w).
  - intros e Hclose. split.
    + now rewrite (teardown_close_raise w e Hclose).
    + rewrite (main_connected w h Hcb Hreg Hopen), monitoring_eq.
      now rewrite (teardown_close_raise w e Hclose).
Qed.

Lemma main_teardown_is_sequential_witness :
  calls is_forward_close (trace (main close_fails_world)) = 1 /\
  calls is_unregister (trace (main close_fails_world)) = 0 /\
  outcome (main close_fails_world) = Raise ConnectionError.
Proof.
  pose proof (main_teardown_is_sequential close_fails_world
                close_fails_world_reaches_monitoring) as (Hc & _ & Hu).
  split; [exact Hc|]. apply (Hu ConnectionError). reflexivity.
Defined.

(** C7 as stated fails: in the run where nothing goes wrong, the receive
    callback is installed first, before the session is registered and the
    connection opened, not after the connection is established. *)
Lemma main_installs_callback_first :
  filter is_lifecycle_call (trace (main nominal_world)) = callback_first /\
  filter is_lifecycle_call (trace (main nominal_world)) <> callback_after_connect.
Proof. split; [reflexivity | discriminate]. Qed.

(** C7, amended.  [main] makes its life-cycle calls in the order
    [set_udp_receive_callback], [register_session], [forward_open],
    [forward_close], [unregister_session]: the callback is installed before
    the session exists.  When no wait is interrupted, the thirty waits lie
    between [forward_open] and [forward_close]. *)
Theorem main_lifecycle_order (w : World) :
  reaches_monitoring w ->
  forward_close w = Ret tt ->
  filter is_lifecycle_call (trace (main w)) = callback_first /\
  (uninterrupted w ->
   filter is_call (trace (main w)) =
   [SetUdpReceiveCallback; RegisterSession target_ip; ForwardOpen] ++
   repeat (Sleep 1) 30 ++ [ForwardClose; UnregisterSession]).
Proof.
  intros (Hcb & [h Hreg] & Hopen) Hclose. split.
  - rewrite (filter_main_connected _ w h foreground_not_lifecycle_call Hcb Hreg Hopen).
    rewrite (teardown_close_ret w Hclose). cbn [trace fst].
    now destruct (unregister_session w).
  - intros Hs. rewrite (main_uninterrupted w h Hcb Hreg Hopen Hs).
    rewrite (teardown_close_ret w Hclose). cbn [trace fst].
    rewrite !filter_app, iterations_calls.
    now destruct (unregister_session w).
Qed.

Lemma main_lifecycle_order_witness :
  filter is_lifecycle_call (trace (main nominal_world)) = callback_first.
Proof.
  apply (main_lifecycle_order nominal_world).
  - exact nominal_world_reaches_monitoring.
  - reflexivity.
Defined.

(** C9.  A [KeyboardInterrupt] raised by a wait of the monitoring loop is
    caught and not raised again: "Interrupted by user." is printed, the
    teardown is performed, and [main] returns normally. *)
Theorem main_interrupt_returns_normally (w : World) (k : nat) :
  reaches_monitoring w ->
  interrupted_at w k ->
  forward_close w = Ret tt ->
  unregister_session w = Ret tt ->
  outcome (main w) = Ret tt /\
  exists h,
    trace (main w) =
    prologue h ++ iterations w 0 k ++
    [Print (input_line (t_o_iodata w k)); Sleep 1;
     Print "Interrupted by user.";
     Print "Closing connection and unregistering session...";
     ForwardClose; UnregisterSession; Print "Done."].
Proof.
  intros (Hcb & [h Hreg] & Hopen) Hk Hclose Hunreg.
  rewrite (main_interrupted w h k Hcb Hreg Hopen Hk).
  rewrite (teardown_close_ret w Hclose), Hunreg. cbn [trace outcome fst snd].
  split; [reflexivity|]. exists h. now rewrite <- !app_assoc.
Qed.

Lemma main_interrupt_returns_normally_witness :
  outcome (main interrupted_world) = Ret tt.
Proof.
  apply (main_interrupt_returns_normally interrupted_world 2).
  - exact interrupted_world_reaches_monitoring.
  - exact interrupted_world_interrupted_at.
  - reflexivity.
  - reflexivity.
Defined.

(** C10.  When the run reaches the loop and no wait raises, the loop makes
    exactly thirty iterations: each prints the first eight bytes of the
    input data as it then is and waits one second; the teardown follows at
    once and decides how [main] ends. *)
Theorem main_runs_thirty_iterations (w : World) :
  reaches_monitoring w ->
  uninterrupted w ->
  (exists h,
     trace (main w) =
     prologue h ++
     flat_map (fun i =>
                 [Print ("Input bytes: " ++
                         str_list (list_of_bytes (firstn 8 (t_o_iodata w i))));
                  Sleep 1])
              (seq 0 30) ++
     trace (teardown w)) /\
  calls is_sleep (trace (main w)) = 30 /\
  outcome (main w) = outcome (teardown w).
Proof.
  intros (Hcb & [h Hreg] & Hopen) Hs.
  rewrite (main_uninterrupted w h Hcb Hreg Hopen Hs). cbn [trace outcome fst snd].
  split; [now exists h|]. split; [|reflexivity].
  unfold calls. rewrite !filter_app, teardown_sleeps, app_nil_r.
  rewrite length_app. fold (calls is_sleep (iterations w 0 30)).
  now rewrite iterations_sleeps.
Qed.

Lemma main_runs_thirty_iterations_witness :
  calls is_sleep (trace (main nominal_world)) = 30 /\
  outcome (main nominal_world) = Ret tt.
Proof.
  apply (main_runs_thirty_iterations nominal_world).
  - exact nominal_world_reaches_monitoring.
  - exact nominal_world_uninterrupted.
Defined.

(** ** Further properties of [main] and [process] *)

Lemma sent_datagrams_app (t1 t2 : list event) :
  sent_datagrams (t1 ++ t2) = sent_datagrams t1 ++ sent_datagrams t2.
Proof.
  induction t1 as [|ev t1 IH]; [reflexivity|].
  destruct ev; cbn [app sent_datagrams]; now rewrite IH.
Qed.

Lemma sent_datagrams_foreground (t : list event) :
  Forall (fun ev => is_foreground ev = true) t ->
  sent_datagrams t = [].
Proof.
  intros Ht. induction Ht as [|ev t Hev _ IH]; [reflexivity|].
  destruct ev; cbn in Hev; try discriminate; exact IH.
Qed.

(** What holds of every printed input line and of a one-second wait holds
    of everything the loop produces. *)
Lemma loop_forall (P : event -> Prop) (w : World) (xs : list nat) :
  (forall c, P (Print (input_line c))) ->
  P (Sleep 1) ->
  Forall P (trace (for_each xs (monitor_step w))).
Proof.
  intros Hline Hsleep. induction xs as [|i xs IH].
  - constructor.
  - destruct (time_sleep w i) as [[]|e] eqn:Hs.
    + rewrite (for_each_step_ret _ _ _ Hs). cbn [trace fst].
      repeat constructor; auto.
    + rewrite (for_each_step_raise _ _ _ _ Hs). cbn [trace fst].
      repeat constructor; auto.
Qed.

Lemma guarded_wait_forall (P : event -> Prop) (w : World) :
  (forall c, P (Print (input_line c))) ->
  P (Sleep 1) ->
  P (Print "Interrupted by user.") ->
  Forall P (trace (guarded_wait w)).
Proof.
  intros Hline Hsleep Hint. unfold guarded_wait, try_except.
  pose proof (loop_forall P w (range 30) Hline Hsleep) as Hl.
  destruct (for_each (range 30) (monitor_step w)) as [t [[]|e]].
  - exact Hl.
  - destruct (exn_eqb e KeyboardInterrupt); cbn [trace fst print] in *.
    + apply Forall_app. split; [exact Hl | repeat constructor; exact Hint].
    + exact Hl.
Qed.

Lemma guarded_wait_raised (w : World) (k : nat) (e : exn) :
  raises_at w k e ->
  guarded_wait w =
  if exn_eqb e KeyboardInterrupt
  then (iterations w 0 k ++
          [Print (input_line (t_o_iodata w k)); Sleep 1;
           Print "Interrupted by user."],
        Ret tt)
  else (iterations w 0 k ++ [Print (input_line (t_o_iodata w k)); Sleep 1],
        Raise e).
Proof.
  intros (Hk & He & Hs). unfold guarded_wait, range.
  rewrite (loop_interrupted w e 30 0 k)
    by (try assumption; try lia; intros j Hj; apply Hs; lia).
  cbn [try_except print]. rewrite Nat.sub_0_r.
  destruct (exn_eqb e KeyboardInterrupt); [|reflexivity].
  now rewrite <- app_assoc.
Qed.

Lemma reaches_monitoring_dec (w : World) :
  reaches_monitoring w \/ ~ reaches_monitoring w.
Proof.
  unfold reaches_monitoring.
  destruct (set_udp_receive_callback w) as [[]|e];
    [|right; intros (H & _); discriminate].
  destruct (register_session w target_ip) as [h|e];
    [|right; intros (_ & [h H] & _); discriminate].
  destruct (forward_open w) as [[]|e];
    [|right; intros (_ & _ & H); discriminate].
  left. repeat split. now exists h.
Qed.

(** A run that does not get as far as the [try] statement. *)
Lemma main_not_connected (w : World) :
  ~ reaches_monitoring w ->
  exists t e,
    main w = (t, Raise e) /\
    filter is_teardown_call t = [] /\
    filter is_sleep t = [] /\
    sent_datagrams t = [] /\
    ~ In (Print "Done.") t.
Proof.
  intros Hn. unfold reaches_monitoring in Hn. unfold main.
  destruct (set_udp_receive_callback w) as [[]|e].
  2:{ eexists; exists e. split; [reflexivity|].
      repeat split. cbn. intuition discriminate. }
  destruct (register_session w target_ip) as [h|e].
  2:{ eexists; exists e. split; [reflexivity|].
      repeat split. cbn. intuition discriminate. }
  destruct (forward_open w) as [[]|e].
  - exfalso. apply Hn. repeat split. now exists h.
  - eexists; exists e. split; [reflexivity|].
    repeat split. cbn. intuition discriminate.
Qed.

Lemma main_connected_trace (w : World) (h : N) :
  set_udp_receive_callback w = Ret tt ->
  register_session w target_ip = Ret h ->
  forward_open w = Ret tt ->
  trace (main w) = prologue h ++ trace (guarded_wait w) ++ trace (teardown w).
Proof.
  intros Hcb Hreg Hopen.
  now rewrite (main_connected w h Hcb Hreg Hopen), monitoring_eq.
Qed.

Lemma main_connected_outcome (w : World) (h : N) :
  set_udp_receive_callback w = Ret tt ->
  register_session w target_ip = Ret h ->
  forward_open w = Ret tt ->
  outcome (main w) =
  match outcome (teardown w) with
  | Ret _ => outcome (guarded_wait w)
  | Raise e => Raise e
  end.
Proof.
  intros Hcb Hreg Hopen.
  now rewrite (main_connected w h Hcb Hreg Hopen), monitoring_eq.
Qed.

Lemma register_fails_world_not_connected : ~ reaches_monitoring register_fails_world.
Proof. intros (_ & [h H] & _). discriminate. Qed.

Lemma wait_fails_world_reaches_monitoring : reaches_monitoring wait_fails_world.
Proof. repeat split. now exists 7%N. Qed.

Lemma wait_fails_world_raises_at : raises_at wait_fails_world 2 Exception_.
Proof.
  split; [lia|]. split; [reflexivity|].
  intros [|[|j]] Hj; [reflexivity | reflexivity | lia].
Qed.

Lemma unregister_fails_world_reaches_monitoring :
  reaches_monitoring unregister_fails_world.
Proof. repeat split. now exists 7%N. Qed.

Lemma exn_eqb_neq (e e' : exn) : e <> e' -> exn_eqb e e' = false.
Proof. destruct e, e'; intros H; try reflexivity; now contradiction H. Qed.

Lemma done_not_in_prologue (h : N) : ~ In (Print "Done.") (prologue h).
Proof. cbn. intuition discriminate. Qed.

Lemma done_not_in_guarded_wait (w : World) :
  ~ In (Print "Done.") (trace (guarded_wait w)).
Proof.
  intros Hin.
  pose proof (guarded_wait_forall (fun ev => ev <> Print "Done.") w) as Hall.
  rewrite Forall_forall in Hall.
  apply (Hall ltac:(intros c; unfold input_line; cbn; discriminate)
              ltac:(discriminate) ltac:(discriminate) _ Hin).
  reflexivity.
Qed.

(** X1.  A failure before the [try] statement (installing the callback,
    registering the session or opening the connection) ends [main] with an
    exception at once: the run makes no wait and no teardown call. *)
Theorem main_aborts_before_try (w : World) :
  ~ reaches_monitoring w ->
  (exists e, outcome (main w) = Raise e) /\
  filter is_teardown_call (trace (main w)) = [] /\
  calls is_sleep (trace (main w)) = 0.
Proof.
  intros Hn.
  destruct (main_not_connected w Hn) as (t & e & Hmain & Htd & Hsl & _).
  rewrite Hmain. cbn [trace outcome fst snd]. unfold calls.
  rewrite Htd, Hsl. split; [now exists e | now split].
Qed.

Lemma main_aborts_before_try_witness :
  filter is_teardown_call (trace (main register_fails_world)) = [] /\
  calls is_sleep (trace (main register_fails_world)) = 0.
Proof.
  apply (proj2 (main_aborts_before_try register_fails_world
                  register_fails_world_not_connected)).
Defined.

(** X2.  In every run, whatever the collaborator and the waits do, the
    teardown calls that [main] makes are an initial part of
    [forward_close; unregister_session]: neither is called twice, and
    [unregister_session] is never called without [forward_close] having
    been called before it. *)
Theorem main_teardown_calls_prefix (w : World) :
  exists n,
    filter is_teardown_call (trace (main w)) =
    firstn n [ForwardClose; UnregisterSession].
Proof.
  destruct (reaches_monitoring_dec w) as [(Hcb & [h Hreg] & Hopen)|Hn].
  - rewrite (filter_main_connected _ w h foreground_not_teardown_call Hcb Hreg Hopen).
    unfold teardown.
    destruct (forward_close w) as [[]|e]; [|now exists 1].
    destruct (unregister_session w) as [[]|e]; now exists 2.
  - destruct (main_not_connected w Hn) as (t & e & Hmain & Htd & _).
    rewrite Hmain. cbn [trace fst]. rewrite Htd. now exists 0.
Qed.

(** X3.  An exception other than [KeyboardInterrupt] raised by a wait is
    not caught: the loop stops there, "Interrupted by user." is not printed,
    the teardown runs in full, and [main] ends by raising that exception. *)
Theorem main_wait_error_propagates (w : World) (k : nat) (e : exn) :
  reaches_monitoring w ->
  raises_at w k e ->
  e <> KeyboardInterrupt ->
  forward_close w = Ret tt ->
  unregister_session w = Ret tt ->
  outcome (main w) = Raise e /\
  exists h,
    trace (main w) =
    prologue h ++ iterations w 0 k ++
    [Print (input_line (t_o_iodata w k)); Sleep 1;
     Print "Closing connection and unregistering session...";
     ForwardClose; UnregisterSession; Print "Done."].
Proof.
  intros (Hcb & [h Hreg] & Hopen) Hk Hne Hclose Hunreg.
  rewrite (main_connected_outcome w h Hcb Hreg Hopen).
  rewrite (main_connected_trace w h Hcb Hreg Hopen).
  rewrite (guarded_wait_raised w k e Hk), (exn_eqb_neq _ _ Hne).
  rewrite (teardown_close_ret w Hclose), Hunreg. cbn [trace outcome fst snd].
  split; [reflexivity|]. exists h. now rewrite <- !app_assoc.
Qed.

Lemma main_wait_error_propagates_witness :
  outcome (main wait_fails_world) = Raise Exception_.
Proof.
  apply (main_wait_error_propagates wait_fails_world 2 Exception_).
  - exact wait_fails_world_reaches_monitoring.
  - exact wait_fails_world_raises_at.
  - discriminate.
  - reflexivity.
  - reflexivity.
Defined.

(** X4.  An exception raised in the [finally] block decides how [main]
    ends: when [forward_close] raises, or returns and [unregister_session]
    raises, [main] ends by raising that exception, whatever ended the loop
    (even another exception, which is lost). *)
Theorem main_teardown_error_wins (w : World) (e : exn) :
  reaches_monitoring w ->
  forward_close w = Raise e \/
  (forward_close w = Ret tt /\ unregister_session w = Raise e) ->
  outcome (main w) = Raise e.
Proof.
  intros (Hcb & [h Hreg] & Hopen) Hfail.
  rewrite (main_connected_outcome w h Hcb Hreg Hopen).
  destruct Hfail as [Hclose|[Hclose Hunreg]].
  - now rewrite (teardown_close_raise w e Hclose).
  - now rewrite (teardown_close_ret w Hclose), Hunreg.
Qed.

Lemma main_teardown_error_wins_witness :
  time_sleep unregister_fails_world 1 = Raise Exception_ /\
  outcome (main unregister_fails_world) = Raise ConnectionError.
Proof.
  split; [reflexivity|].
  apply (main_teardown_error_wins unregister_fails_world ConnectionError).
  - exact unregister_fails_world_reaches_monitoring.
  - right. split; reflexivity.
Defined.

(** X5.  The loop stops at the first wait that raises, whatever the
    exception: when that is the wait of iteration [k], the run has made
    exactly [k + 1] waits. *)
Theorem main_stops_at_first_raise (w : World) (k : nat) (e : exn) :
  reaches_monitoring w ->
  raises_at w k e ->
  calls is_sleep (trace (main w)) = k + 1.
Proof.
  intros (Hcb & [h Hreg] & Hopen) Hk.
  rewrite (main_connected_trace w h Hcb Hreg Hopen).
  rewrite (guarded_wait_raised w k e Hk). unfold calls.
  rewrite !filter_app, teardown_sleeps, app_nil_r.
  destruct (exn_eqb e KeyboardInterrupt); cbn [trace fst];
    rewrite filter_app, !length_app;
    fold (calls is_sleep (iterations w 0 k));
    rewrite iterations_sleeps; reflexivity.
Qed.

Lemma main_stops_at_first_raise_witness :
  calls is_sleep (trace (main wait_fails_world)) = 3.
Proof.
  apply (main_stops_at_first_raise wait_fails_world 2 Exception_).
  - exact wait_fails_world_reaches_monitoring.
  - exact wait_fails_world_raises_at.
Defined.

(** X6.  [process] raises only what the send raises: if an invocation ends
    with an exception, the payload was a sensor event, the acknowledgment
    send was attempted, and it is the send that raised that exception.  No
    payload, of any length, makes [process] fail by itself. *)
Theorem process_raises_only_from_send (w : World) (p : bytes) (e : exn) :
  outcome (process w p) = Raise e ->
  send_udp_explicitly w ack = Raise e /\
  sent_datagrams (trace (process w p)) = [ack].
Proof.
  destruct p as [|b rest].
  - rewrite process_empty. discriminate.
  - destruct (int_truthy (N.land (Byte.to_N b) 1)) eqn:Hbit.
    + rewrite (process_event w b rest Hbit). cbn [trace outcome fst snd].
      intros Hsend. rewrite Hsend. now split.
    + rewrite (process_no_event w b rest Hbit). discriminate.
Qed.

Lemma process_raises_only_from_send_witness :
  send_udp_explicitly send_fails_world ack = Raise SendError /\
  sent_datagrams (trace (process send_fails_world [x03; x00])) = [ack].
Proof.
  apply (process_raises_only_from_send send_fails_world [x03; x00] SendError).
  reflexivity.
Defined.

(** X7.  [main] itself never sends a datagram: in every run, no call of
    [send_udp_explicitly] is among its events.  Acknowledgments come from
    the callback only. *)
Theorem main_never_sends (w : World) :
  sent_datagrams (trace (main w)) = [].
Proof.
  destruct (reaches_monitoring_dec w) as [(Hcb & [h Hreg] & Hopen)|Hn].
  - rewrite (main_connected_trace w h Hcb Hreg Hopen).
    rewrite !sent_datagrams_app.
    rewrite (sent_datagrams_foreground _ (guarded_wait_foreground w)).
    unfold teardown.
    destruct (forward_close w) as [[]|e]; [|reflexivity].
    now destruct (unregister_session w) as [[]|e].
  - destruct (main_not_connected w Hn) as (t & e & Hmain & _ & _ & Hsent & _).
    now rewrite Hmain.
Qed.

(** X8.  "Done." is printed exactly when the run reached the [try]
    statement and both teardown calls returned; it is printed whether the
    loop ran to its end, was interrupted, or failed. *)
Theorem main_done_iff_teardown_complete (w : World) :
  In (Print "Done.") (trace (main w)) <->
  reaches_monitoring w /\
  forward_close w = Ret tt /\
  unregister_session w = Ret tt.
Proof.
  split.
  - intros Hin.
    destruct (reaches_monitoring_dec w) as [Hr|Hn].
    + split; [exact Hr|].
      destruct Hr as (Hcb & [h Hreg] & Hopen).
      rewrite (main_connected_trace w h Hcb Hreg Hopen) in Hin.
      apply in_app_or in Hin. destruct Hin as [Hin|Hin];
        [now apply done_not_in_prologue in Hin|].
      apply in_app_or in Hin. destruct Hin as [Hin|Hin];
        [now apply done_not_in_guarded_wait in Hin|].
      unfold teardown in Hin.
      destruct (forward_close w) as [[]|e];
        [|cbn in Hin; exfalso; intuition discriminate].
      destruct (unregister_session w) as [[]|e];
        [now split | cbn in Hin; exfalso; intuition discriminate].
    + destruct (main_not_connected w Hn) as (t & e & Hmain & _ & _ & _ & Hdone).
      rewrite Hmain in Hin. now contradiction Hdone.
  - intros ((Hcb & [h Hreg] & Hopen) & Hclose & Hunreg).
    rewrite (main_connected_trace w h Hcb Hreg Hopen).
    rewrite (teardown_close_ret w Hclose), Hunreg. cbn [trace fst].
    apply in_or_app. right. apply in_or_app. right. cbn. tauto.
Qed.

(** X9.  [process] prints "Acknowledgment sent." exactly when it attempted
    the send and the send returned: the line is never printed for a payload
    that is not a sensor event, nor after a send that raised. *)
Theorem process_ack_line_iff_sent (w : World) (p : bytes) :
  In (Print "Acknowledgment sent.") (trace (process w p)) <->
  sent_datagrams (trace (process w p)) = [ack] /\
  send_udp_explicitly w ack = Ret tt.
Proof.
  destruct p as [|b rest].
  - rewrite process_empty. cbn. split; [intuition discriminate|].
    intros [H _]. discriminate.
  - destruct (int_truthy (N.land (Byte.to_N b) 1)) eqn:Hbit.
    + rewrite (process_event w b rest Hbit). cbn [trace fst].
      destruct (send_udp_explicitly w ack) as [[]|e].
      * split; [now split | intros _; cbn; tauto].
      * split; [cbn; intuition discriminate | intros [_ H]; discriminate].
    + rewrite (process_no_event w b rest Hbit). cbn.
      split; [intuition discriminate | intros [H _]; discriminate].
Qed.
